(** * Resume positions of the replication handler

    A shallow embedding of [replication_handler/util/position.py] and the
    properties of its position classes: [GtidPosition], [LogPosition],
    [HeartbeatPosition] and the factory [construct_position].

    Python objects are dynamically typed; the fields of a position hold
    [None], a byte string or an integer, so the embedding carries a small
    universe of Python values together with Python's truth-value test.
    Dictionaries are finite maps from string keys to such values.  A call
    that may raise returns in the [result] type, whose [Raise] branch names
    the exception class. *)

From Stdlib Require Import ZArith Lia Ascii String Decimal DecimalString DecimalZ.
From stdpp Require Import base option strings gmap.

Local Open Scope Z_scope.

(** ** Python values *)

Module Py.

Inductive value : Type :=
| VNone
| VStr (s : string)
| VInt (z : Z).

#[global] Instance value_eq_dec : EqDecision value.
Proof. solve_decision. Defined.

(** Truth-value testing, as performed by [if x:] and [x and y]. *)
Definition truthy (v : value) : bool :=
  match v with
  | VNone => false
  | VStr s => negb (String.eqb s "")
  | VInt z => negb (z =? 0)
  end.

(** [x == y] on the values above: values of different types never
    compare equal. *)
Definition eqv (x y : value) : bool := bool_decide (x = y).

(** Exception classes the module can raise. *)
Inductive exn : Type :=
| ValueError
| AttributeError
| InvalidPositionDictException.

Inductive result (A : Type) : Type :=
| Return (a : A)
| Raise (e : exn).
#[global] Arguments Return {A} a.
#[global] Arguments Raise {A} e.

(** Sequencing: an exception raised by the first call propagates. *)
#[global] Instance result_ret : MRet result := λ A, Return.
#[global] Instance result_bind : MBind result := λ A B k r,
  match r with
  | Return a => k a
  | Raise e => Raise e
  end.

(** *** Byte strings

    [str.split(sep)] for a one-character separator: the pieces between
    consecutive occurrences of [sep], empty pieces included. *)
Fixpoint split (sep : ascii) (s : string) : list string :=
  match s with
  | EmptyString => [EmptyString]
  | String c rest =>
      if Ascii.eqb c sep then EmptyString :: split sep rest
      else match split sep rest with
           | hd :: tl => String c hd :: tl
           | [] => [String c EmptyString]
           end
  end.

(** The characters [str.strip()] and [int()] treat as white space in a
    byte string: tab, line feed, vertical tab, form feed, carriage return
    and space. *)
Definition is_space (c : ascii) : bool :=
  let n := N_of_ascii c in ((9 <=? n) && (n <=? 13) || (n =? 32))%N.

Definition digit_of (c : ascii) : option Z :=
  let n := N_of_ascii c in
  if ((48 <=? n) && (n <=? 57))%N then Some (Z.of_N n - 48) else None.

Fixpoint lstrip (s : string) : string :=
  match s with
  | EmptyString => EmptyString
  | String c rest => if is_space c then lstrip rest else s
  end.

Fixpoint rstrip (s : string) : string :=
  match s with
  | EmptyString => EmptyString
  | String c rest =>
      match rstrip rest with
      | EmptyString => if is_space c then EmptyString else String c EmptyString
      | kept => String c kept
      end
  end.

Definition strip (s : string) : string := rstrip (lstrip s).

(** Value of a run of decimal digits read left to right; [None] as soon
    as a character is not a digit. *)
Fixpoint digits_from (acc : Z) (s : string) : option Z :=
  match s with
  | EmptyString => Some acc
  | String c rest =>
      match digit_of c with
      | Some d => digits_from (10 * acc + d) rest
      | None => None
      end
  end.

Definition unsigned_of (s : string) : option Z :=
  match s with
  | EmptyString => None
  | _ => digits_from 0 s
  end.

(** An optional sign, then at least one digit. *)
Definition signed_of (t : string) : option Z :=
  match t with
  | String c body =>
      if Ascii.eqb c "+" then unsigned_of body
      else if Ascii.eqb c "-" then Z.opp <$> unsigned_of body
      else unsigned_of t
  | EmptyString => None
  end.

(** [int(s)] for a byte string [s] in base ten, as CPython 2.7 (the
    interpreter this module is written for) reads it: surrounding white
    space is dropped, one sign may precede the digits, at least one digit
    is required, and anything else raises [ValueError]. *)
Definition int (s : string) : result Z :=
  match signed_of (strip s) with
  | Some z => Return z
  | None => Raise ValueError
  end.

(** [str(n)] / ["{}".format(n)] for an integer [n]: its decimal digits,
    with a leading minus sign when negative. *)
Definition str_of_int (z : Z) : string :=
  NilZero.string_of_int (Z.to_int z).

(** [d.get(k)], with [None] as the default. *)
Definition get (d : gmap string value) (k : string) : value :=
  default VNone (d !! k).

(** [k in d]. *)
Definition contains (d : gmap string value) (k : string) : bool :=
  bool_decide (is_Some (d !! k)).

End Py.

Import Py.

(** ** [class GtidPosition(Position)] *)

Module GtidPosition.

Record t : Type := __init__ { gtid : value; offset : value }.

Definition to_dict (self : t) : gmap string value :=
  let position_dict := ∅ in
  let position_dict :=
    if truthy (gtid self) then <["gtid" := gtid self]> position_dict
    else position_dict in
  let position_dict :=
    if truthy (offset self) then <["offset" := offset self]> position_dict
    else position_dict in
  position_dict.

(** [sid, transaction_id = gtid.split(":")]: the attribute lookup fails on
    a value that is not a string, the unpacking fails unless the split
    has exactly two pieces. *)
Definition split_gtid (gtid : value) : result (string * string) :=
  match gtid with
  | VStr g =>
      match split ":" g with
      | [sid; transaction_id] => Return (sid, transaction_id)
      | _ => Raise ValueError
      end
  | _ => Raise AttributeError
  end.

Definition _format_gtid_set (gtid : value) : result string :=
  '(sid, transaction_id) ← split_gtid gtid;
  next_transaction_id ← int transaction_id;
  mret (sid +:+ ":1-" +:+ str_of_int next_transaction_id).

Definition _format_next_gtid_set (gtid : value) : result string :=
  '(sid, transaction_id) ← split_gtid gtid;
  transaction_id ← int transaction_id;
  mret (sid +:+ ":1-" +:+ str_of_int (transaction_id + 1)).

Definition to_replication_dict (self : t) : result (gmap string value) :=
  let position_dict : gmap string value := ∅ in
  if truthy (gtid self) && truthy (offset self) then
    auto_position ← _format_gtid_set (gtid self);
    mret (<["auto_position" := VStr auto_position]> position_dict)
  else if truthy (gtid self) then
    auto_position ← _format_next_gtid_set (gtid self);
    mret (<["auto_position" := VStr auto_position]> position_dict)
  else mret position_dict.

End GtidPosition.

(** ** [class LogPosition(Position)] *)

Module LogPosition.

Record t : Type := __init__ { log_pos : value; log_file : value; offset : value }.

Definition to_dict (self : t) : gmap string value :=
  let position_dict := ∅ in
  let position_dict :=
    if truthy (log_pos self) && truthy (log_file self) then
      <["log_file" := log_file self]> (<["log_pos" := log_pos self]> position_dict)
    else position_dict in
  let position_dict :=
    if truthy (offset self) then <["offset" := offset self]> position_dict
    else position_dict in
  position_dict.

Definition to_replication_dict (self : t) : gmap string value :=
  let position_dict := ∅ in
  if truthy (log_pos self) && truthy (log_file self) then
    <["log_file" := log_file self]> (<["log_pos" := log_pos self]> position_dict)
  else position_dict.

End LogPosition.

(** ** The [Position] interface and the factory *)

Inductive Position : Type :=
| Gtid (p : GtidPosition.t)
| Log (p : LogPosition.t).

Definition to_dict (self : Position) : gmap string value :=
  match self with
  | Gtid p => GtidPosition.to_dict p
  | Log p => LogPosition.to_dict p
  end.

Definition to_replication_dict (self : Position) : result (gmap string value) :=
  match self with
  | Gtid p => GtidPosition.to_replication_dict p
  | Log p => mret (LogPosition.to_replication_dict p)
  end.

Definition construct_position (position_dict : gmap string value) : result Position :=
  if contains position_dict "gtid" then
    Return (Gtid (GtidPosition.__init__
                    (get position_dict "gtid")
                    (get position_dict "offset")))
  else if contains position_dict "log_pos" && contains position_dict "log_file" then
    Return (Log (LogPosition.__init__
                   (get position_dict "log_pos")
                   (get position_dict "log_file")
                   (get position_dict "offset")))
  else Raise InvalidPositionDictException.

(** ** [class HeartbeatPosition(LogPosition)] *)

Module HeartbeatPosition.

Record t : Type := Build {
  hb_serial : value;
  hb_timestamp : value;
  base : LogPosition.t
}.

Definition log_pos (self : t) : value := LogPosition.log_pos (base self).
Definition log_file (self : t) : value := LogPosition.log_file (base self).
Definition offset (self : t) : value := LogPosition.offset (base self).

(** [offset] defaults to [0] when the caller leaves it out. *)
Definition __init__ (hb_serial hb_timestamp log_pos log_file : value)
    (offset : option value) : t :=
  Build hb_serial hb_timestamp
        (LogPosition.__init__ log_pos log_file (default (VInt 0) offset)).

Definition __eq__ (self other : t) : bool :=
  eqv (hb_serial self) (hb_serial other) &&
  eqv (hb_timestamp self) (hb_timestamp other) &&
  eqv (log_file self) (log_file other) &&
  eqv (log_pos self) (log_pos other).

(** Both conversions are inherited from [LogPosition]. *)
Definition to_dict (self : t) : gmap string value :=
  LogPosition.to_dict (base self).
Definition to_replication_dict (self : t) : gmap string value :=
  LogPosition.to_replication_dict (base self).

(** What a replacement field [{}] of [str.format] prints for a value:
    [None] as the word None, a string as it is, an integer in decimal. *)
Definition format_field (v : value) : string :=
  match v with
  | VNone => "None"
  | VStr s => s
  | VInt z => str_of_int z
  end.

(** The line feed character. *)
Definition LF : ascii := "010"%char.

Definition __str__ (self : t) : string :=
  "Serial:     " +:+ format_field (hb_serial self) +:+ String LF (
  "Timestamp:  " +:+ format_field (hb_timestamp self) +:+ String LF (
  "File:       " +:+ format_field (log_file self) +:+ String LF (
  "Position:   " +:+ format_field (log_pos self)))).

End HeartbeatPosition.

(** ** GTID syntax, as the specification words it

    A GTID is well formed when it contains exactly one [":"] and the text
    after it is an integer in decimal: optional white space, an optional
    sign, one or more digits, optional white space.  These definitions do
    not refer to the code above; the theorems below relate the two. *)

Module GtidSyntax.

Fixpoint count (sep : ascii) (s : string) : nat :=
  match s with
  | EmptyString => 0%nat
  | String c rest => ((if Ascii.eqb c sep then 1 else 0) + count sep rest)%nat
  end.

Fixpoint before (sep : ascii) (s : string) : string :=
  match s with
  | EmptyString => EmptyString
  | String c rest => if Ascii.eqb c sep then EmptyString else String c (before sep rest)
  end.

Fixpoint after (sep : ascii) (s : string) : string :=
  match s with
  | EmptyString => EmptyString
  | String c rest => if Ascii.eqb c sep then rest else after sep rest
  end.

Definition is_digit (c : ascii) : bool :=
  let n := N_of_ascii c in ((48 <=? n) && (n <=? 57))%N.

Fixpoint all (P : ascii → bool) (s : string) : bool :=
  match s with
  | EmptyString => true
  | String c rest => P c && all P rest
  end.

(** Digits, then white space up to the end; [seen] records that at least
    one digit was read. *)
Fixpoint digits_then_space (seen : bool) (s : string) : bool :=
  match s with
  | EmptyString => seen
  | String c rest =>
      if is_digit c then digits_then_space true rest
      else seen && all is_space s
  end.

Definition is_sign (c : ascii) : bool := Ascii.eqb c "+" || Ascii.eqb c "-".

Definition signed_digits (s : string) : bool :=
  match s with
  | String c rest =>
      if is_sign c then digits_then_space false rest
      else digits_then_space false s
  | EmptyString => false
  end.

Fixpoint integer_text (s : string) : bool :=
  match s with
  | EmptyString => false
  | String c rest => if is_space c then integer_text rest else signed_digits s
  end.

Definition well_formed (g : string) : bool :=
  (count ":" g =? 1)%nat && integer_text (after ":" g).


End GtidSyntax.

Import GtidSyntax.

(** ** Well-formedness of positions *)

(** An offset that is set comes with a GTID that is set. *)
Definition offset_needs_gtid (p : GtidPosition.t) : bool :=
  implb (truthy (GtidPosition.offset p)) (truthy (GtidPosition.gtid p)).

(** The position names a place in the stream: a GTID, or a log file and a
    position in it. *)
Definition locates (p : Position) : bool :=
  match p with
  | Gtid g => truthy (GtidPosition.gtid g)
  | Log l => truthy (LogPosition.log_pos l) && truthy (LogPosition.log_file l)
  end.

(** What the factory rebuilds from the persisted mapping of a position
    that names a place: the same position, with a falsy offset replaced
    by [None]. *)
Definition reloaded (p : Position) : Position :=
  let kept off := if truthy off then off else VNone in
  match p with
  | Gtid g =>
      Gtid (GtidPosition.__init__ (GtidPosition.gtid g) (kept (GtidPosition.offset g)))
  | Log l =>
      Log (LogPosition.__init__ (LogPosition.log_pos l) (LogPosition.log_file l)
             (kept (LogPosition.offset l)))
  end.

(** * Properties *)

(** ** The model on concrete inputs *)

Example split_examples :
  split ":" "abc:13" = ["abc"; "13"] ∧ split ":" "" = [""] ∧
  split ":" "abc" = ["abc"] ∧ split ":" "a::b" = ["a"; ""; "b"] ∧
  split ":" ":7" = [""; "7"].
Proof. done. Qed.

Example int_examples :
  int "13" = Return 13 ∧ int "007" = Return 7 ∧ int "+5" = Return 5 ∧
  int "-5" = Return (-5) ∧ int " 13 " = Return 13 ∧
  int "" = Raise ValueError ∧ int "-" = Raise ValueError ∧
  int "- 5" = Raise ValueError ∧ int "1 3" = Raise ValueError ∧
  int "13L" = Raise ValueError ∧ int "x13" = Raise ValueError.
Proof. done. Qed.

Example str_of_int_examples :
  str_of_int 0 = "0" ∧ str_of_int 14 = "14" ∧ str_of_int (-4) = "-4".
Proof. done. Qed.

Example docstring_examples :
  GtidPosition.to_replication_dict (GtidPosition.__init__ (VStr "sid:13") VNone) =
    Return {[ "auto_position" := VStr "sid:1-14" ]} ∧
  GtidPosition.to_replication_dict (GtidPosition.__init__ (VStr "sid:13") (VInt 10)) =
    Return {[ "auto_position" := VStr "sid:1-13" ]}.
Proof. done. Qed.

(** ** Strings *)

Section Strings.

Implicit Types (s t : string) (c sep : ascii).

Lemma append_nil_l s : "" +:+ s = s.
Proof. reflexivity. Qed.

Lemma append_cons c s t : String c s +:+ t = String c (s +:+ t).
Proof. reflexivity. Qed.

Lemma append_nil_r s : s +:+ "" = s.
Proof. induction s as [|c s IH]; [done|by rewrite append_cons, IH]. Qed.

Lemma append_assoc s t u : (s +:+ t) +:+ u = s +:+ t +:+ u.
Proof. induction s as [|c s IH]; [done|by rewrite !append_cons, IH]. Qed.

Lemma split_not_nil sep s : split sep s ≠ [].
Proof.
  destruct s as [|c s]; simpl; [done|].
  destruct (Ascii.eqb c sep); [done|].
  by destruct (split sep s).
Qed.

Lemma length_split sep s : length (split sep s) = S (count sep s).
Proof.
  induction s as [|c s IH]; simpl; [done|].
  destruct (Ascii.eqb c sep); simpl; [by rewrite IH|].
  destruct (split sep s); simpl in *; [done|lia].
Qed.

Lemma split_no_sep sep s : count sep s = 0%nat → split sep s = [s].
Proof.
  induction s as [|c s IH]; simpl; [done|].
  destruct (Ascii.eqb c sep); [done|].
  intros H. by rewrite IH.
Qed.

Lemma split_app sep s t :
  count sep s = 0%nat → split sep (s +:+ String sep t) = s :: split sep t.
Proof.
  induction s as [|c s IH]; rewrite ?append_cons, ?append_nil_l; simpl.
  - by rewrite Ascii.eqb_refl.
  - destruct (Ascii.eqb c sep); [done|].
    intros H. by rewrite IH.
Qed.

Lemma before_after sep s :
  count sep s ≠ 0%nat → s = before sep s +:+ String sep (after sep s).
Proof.
  induction s as [|c s IH]; simpl; [done|].
  destruct (Ascii.eqb_spec c sep) as [->|Hne]; simpl; [done|].
  intros H. by rewrite append_cons, <- IH.
Qed.

Lemma count_before sep s : count sep (before sep s) = 0%nat.
Proof.
  induction s as [|c s IH]; simpl; [done|].
  destruct (Ascii.eqb c sep) eqn:E; simpl; [done|]. by rewrite E.
Qed.

Lemma count_after sep s :
  count sep s ≠ 0%nat → count sep s = S (count sep (after sep s)).
Proof.
  induction s as [|c s IH]; simpl; [done|].
  destruct (Ascii.eqb c sep); simpl; [done|]. apply IH.
Qed.

(** With exactly one separator the split is the text before it and the
    text after it. *)
Lemma split_one sep s :
  count sep s = 1%nat → split sep s = [before sep s; after sep s].
Proof.
  intros H.
  assert (Hne : count sep s ≠ 0%nat) by lia.
  rewrite (before_after sep s Hne) at 1.
  rewrite split_app by apply count_before.
  rewrite split_no_sep; [done|].
  apply count_after in Hne. lia.
Qed.

(** A split in two pieces comes from exactly one separator. *)
Lemma split_two sep s a b :
  split sep s = [a; b] →
  s = a +:+ String sep b ∧ count sep a = 0%nat ∧ count sep b = 0%nat.
Proof.
  intros H.
  assert (Hc : count sep s = 1%nat).
  { pose proof (length_split sep s) as L. rewrite H in L. simpl in L. lia. }
  rewrite (split_one _ _ Hc) in H. injection H as <- <-.
  split; [apply before_after; lia|].
  split; [apply count_before|].
  assert (count sep s ≠ 0%nat) as Hne by lia.
  apply count_after in Hne. lia.
Qed.

End Strings.

(** ** Reading and printing integers *)

Section Integers.

Implicit Types (s t : string) (c : ascii) (z acc : Z).

Lemma digit_of_is_digit c :
  digit_of c = if is_digit c then Some (Z.of_N (N_of_ascii c) - 48) else None.
Proof. reflexivity. Qed.

Lemma digit_not_space c : is_digit c = true → is_space c = false.
Proof.
  unfold is_digit, is_space. cbv zeta.
  generalize (N_of_ascii c). intros n H.
  apply andb_true_iff in H as [H1 H2].
  apply N.leb_le in H1. apply N.leb_le in H2.
  apply orb_false_iff. split.
  - apply andb_false_iff. right. apply N.leb_gt. lia.
  - apply N.eqb_neq. lia.
Qed.

Lemma digit_not_sign c : is_digit c = true → is_sign c = false.
Proof.
  unfold is_sign. intros H.
  destruct (Ascii.eqb_spec c "+") as [->|_]; [done|].
  destruct (Ascii.eqb_spec c "-") as [->|_]; done.
Qed.

Lemma sign_not_space c : is_sign c = true → is_space c = false.
Proof.
  unfold is_sign.
  destruct (Ascii.eqb_spec c "+") as [->|_]; [done|].
  destruct (Ascii.eqb_spec c "-") as [->|_]; done.
Qed.

Lemma sign_not_digit c : is_sign c = true → is_digit c = false.
Proof.
  intros H. destruct (is_digit c) eqn:E; [|done].
  apply digit_not_sign in E. congruence.
Qed.

(** *** Stripping *)

Lemma rstrip_nil_iff s : rstrip s = "" ↔ all is_space s = true.
Proof.
  induction s as [|c s IH]; simpl; [done|].
  destruct (rstrip s) eqn:E.
  - destruct (is_space c); simpl; [|done].
    split; [intros _; by apply IH|done].
  - split; [done|]. intros H. apply andb_true_iff in H as [_ H].
    apply IH in H. done.
Qed.

Lemma rstrip_cons c s :
  rstrip (String c s) =
    if is_space c && all is_space s then "" else String c (rstrip s).
Proof.
  simpl. destruct (rstrip s) eqn:E.
  - assert (all is_space s = true) as -> by by apply rstrip_nil_iff.
    by destruct (is_space c).
  - destruct (all is_space s) eqn:A.
    + apply rstrip_nil_iff in A. congruence.
    + by rewrite andb_false_r.
Qed.

Lemma rstrip_no_space s :
  (∀ c, is_space c = true → count c s = 0%nat) → rstrip s = s.
Proof.
  induction s as [|c s IH]; [done|].
  intros H. rewrite rstrip_cons.
  destruct (is_space c) eqn:E.
  - specialize (H c E). simpl in H. rewrite Ascii.eqb_refl in H. done.
  - simpl. rewrite IH; [done|].
    intros c' Hc'. specialize (H c' Hc'). simpl in H. lia.
Qed.

Lemma integer_text_lstrip t : integer_text t = signed_digits (lstrip t).
Proof.
  induction t as [|c t IH]; simpl; [done|].
  by destruct (is_space c).
Qed.

(** *** Digits *)

Lemma digits_from_is_Some acc s :
  is_Some (digits_from acc s) ↔ all is_digit s = true.
Proof.
  revert acc. induction s as [|c s IH]; intros acc; simpl.
  - split; [done|by eexists].
  - rewrite digit_of_is_digit. destruct (is_digit c); simpl.
    + apply IH.
    + split; [by intros [? ?]|done].
Qed.

Lemma unsigned_of_is_Some s :
  is_Some (unsigned_of s) ↔ s ≠ "" ∧ all is_digit s = true.
Proof.
  destruct s as [|c s]; unfold unsigned_of.
  - split; [by intros [? ?]|by intros [? _]].
  - rewrite digits_from_is_Some. split; [done|by intros [_ ?]].
Qed.

(** The recogniser of the grammar, in terms of the stripped text. *)
Lemma digits_then_space_rstrip seen s :
  digits_then_space seen s =
    (seen || negb (String.eqb (rstrip s) "")) && all is_digit (rstrip s).
Proof.
  revert seen. induction s as [|c s IH]; intros seen.
  - simpl. by destruct seen.
  - rewrite rstrip_cons. simpl digits_then_space.
    destruct (is_digit c) eqn:D.
    + rewrite (digit_not_space _ D). simpl. rewrite D, IH. simpl.
      by rewrite orb_true_r.
    + destruct (is_space c && all is_space s) eqn:A; simpl; rewrite ?D.
      * by destruct seen.
      * simpl. by rewrite !andb_false_r.
Qed.

Lemma digits_then_space_unsigned s :
  digits_then_space false s = true ↔ is_Some (unsigned_of (rstrip s)).
Proof.
  rewrite digits_then_space_rstrip, unsigned_of_is_Some. simpl.
  rewrite andb_true_iff, negb_true_iff, String.eqb_neq. done.
Qed.

Lemma signed_digits_signed_of s :
  signed_digits s = true ↔ is_Some (signed_of (rstrip s)).
Proof.
  destruct s as [|c s].
  - simpl. split; [done|by intros [? ?]].
  - unfold signed_digits. destruct (is_sign c) eqn:S.
    + rewrite rstrip_cons, (sign_not_space _ S). cbn [andb].
      unfold signed_of, is_sign in *.
      destruct (Ascii.eqb c "+"); [apply digits_then_space_unsigned|].
      cbn [orb] in S. rewrite S, fmap_is_Some.
      apply digits_then_space_unsigned.
    + etransitivity; [apply digits_then_space_unsigned|].
      rewrite rstrip_cons.
      destruct (is_space c && all is_space s).
      * split; by intros [? ?].
      * unfold signed_of, is_sign in *.
        apply orb_false_iff in S as [-> ->]. done.
Qed.

(** [int] returns exactly on the texts of the grammar. *)
Theorem int_returns_iff t :
  (∃ z, int t = Return z) ↔ integer_text t = true.
Proof.
  rewrite integer_text_lstrip, signed_digits_signed_of.
  unfold int, strip. destruct (signed_of _) as [z|].
  - split; [by eexists|by exists z].
  - split; [by intros [? ?]|by intros [? ?]].
Qed.

Corollary int_raises_iff t :
  int t = Raise ValueError ↔ integer_text t = false.
Proof.
  pose proof (int_returns_iff t) as H.
  unfold int in *. destruct (signed_of _) as [z|].
  - split; [done|]. intros E. destruct H as [H _]. rewrite H in E; [done|by eexists].
  - split; [|done]. intros _. destruct (integer_text t); [|done].
    destruct H as [_ [? ?]]; done.
Qed.

(** *** Printing, then reading *)

Lemma rstrip_digits s : all is_digit s = true → rstrip s = s.
Proof.
  induction s as [|c s IH]; [done|]. simpl all.
  intros [D H]%andb_true_iff.
  by rewrite rstrip_cons, (digit_not_space _ D), IH.
Qed.

Lemma int_digits s v :
  s ≠ "" → digits_from 0 s = Some v → int s = Return v.
Proof.
  intros Hne Hv.
  assert (all is_digit s = true) as Hd by (apply (digits_from_is_Some 0); by eexists).
  destruct s as [|c s]; [done|].
  pose proof Hd as [D _]%andb_true_iff.
  unfold int, strip. cbn [lstrip]. rewrite (digit_not_space _ D).
  rewrite (rstrip_digits _ Hd). unfold signed_of.
  pose proof (digit_not_sign _ D) as [-> ->]%orb_false_iff.
  unfold unsigned_of. by rewrite Hv.
Qed.

Lemma int_minus_digits s v :
  s ≠ "" → digits_from 0 s = Some v → int (String "-" s) = Return (- v).
Proof.
  intros Hne Hv.
  assert (all is_digit s = true) as Hd by (apply (digits_from_is_Some 0); by eexists).
  unfold int, strip. cbn [lstrip].
  change (is_space "-") with false. cbv iota.
  rewrite rstrip_cons. change (is_space "-") with false. cbn [andb].
  rewrite (rstrip_digits _ Hd). unfold signed_of.
  change (Ascii.eqb "-" "+") with false. change (Ascii.eqb "-" "-") with true.
  cbv iota. destruct s as [|c s]; [done|].
  unfold unsigned_of. by rewrite Hv.
Qed.

Lemma digits_from_uint_pos d p :
  digits_from (Z.pos p) (NilEmpty.string_of_uint d) = Some (Z.pos (Pos.of_uint_acc d p)).
Proof.
  revert p. induction d as [|d IH|d IH|d IH|d IH|d IH|d IH|d IH|d IH|d IH|d IH];
    intros p; [done|..];
    cbn [NilEmpty.string_of_uint digits_from Pos.of_uint_acc];
    (rewrite digit_of_is_digit; cbn -[Z.mul Z.add digits_from Pos.of_uint_acc]);
    rewrite <- IH; f_equal; lia.
Qed.

Lemma digits_from_uint d :
  digits_from 0 (NilEmpty.string_of_uint d) = Some (Z.of_N (Pos.of_uint d)).
Proof.
  induction d as [|d IH|d IH|d IH|d IH|d IH|d IH|d IH|d IH|d IH|d IH];
    [done|exact IH|..];
    cbn [NilEmpty.string_of_uint digits_from Pos.of_uint];
    (rewrite digit_of_is_digit; cbn -[digits_from Pos.of_uint_acc]);
    apply digits_from_uint_pos.
Qed.

Lemma to_uint_not_nil p : Pos.to_uint p ≠ Nil.
Proof.
  intros E. pose proof (DecimalPos.Unsigned.of_to p) as H.
  rewrite E in H. done.
Qed.

Lemma string_of_to_uint p :
  let s := NilZero.string_of_uint (Pos.to_uint p) in
  s ≠ "" ∧ digits_from 0 s = Some (Z.pos p).
Proof.
  pose proof (to_uint_not_nil p) as Hn.
  pose proof (digits_from_uint (Pos.to_uint p)) as Hv.
  rewrite DecimalPos.Unsigned.of_to in Hv.
  cbv zeta. destruct (Pos.to_uint p); done.
Qed.

(** Reading the decimal text of an integer gives the integer back. *)
Theorem int_str_of_int z : int (str_of_int z) = Return z.
Proof.
  destruct z as [|p|p]; [done|..]; unfold str_of_int; simpl;
    destruct (string_of_to_uint p) as [Hne Hv].
  - by apply int_digits.
  - by apply (int_minus_digits _ (Z.pos p)).
Qed.

(** The decimal text of an integer has no colon in it. *)
Lemma count_colon_digits s : all is_digit s = true → count ":" s = 0%nat.
Proof.
  induction s as [|c s IH]; [done|]. simpl.
  intros [D H]%andb_true_iff. rewrite (IH H).
  destruct (Ascii.eqb_spec c ":") as [->|_]; done.
Qed.

Lemma count_colon_str_of_int z : count ":" (str_of_int z) = 0%nat.
Proof.
  assert (∀ p, count ":" (NilZero.string_of_uint (Pos.to_uint p)) = 0%nat) as Hp.
  { intros p. destruct (string_of_to_uint p) as [_ Hv].
    apply count_colon_digits, (digits_from_is_Some 0). by eexists. }
  destruct z as [|p|p]; [done|..]; unfold str_of_int; simpl; by rewrite ?Hp.
Qed.

End Integers.

(** ** The grammar of integer texts *)

Section Grammar.

Implicit Types (s t ws ds : string) (c : ascii).







End Grammar.

(** ** GTID positions *)

Section GtidResume.

Implicit Types (g sid tid : string) (off : value) (n : Z).

Lemma truthy_append_colon sid tid : truthy (VStr (sid +:+ ":" +:+ tid)) = true.
Proof. by destruct sid. Qed.

Lemma split_gtid_parts sid tid :
  count ":" sid = 0%nat → count ":" tid = 0%nat →
  GtidPosition.split_gtid (VStr (sid +:+ ":" +:+ tid)) = Return (sid, tid).
Proof.
  intros Hs Ht. unfold GtidPosition.split_gtid.
  change (":" +:+ tid) with (String ":" tid).
  by rewrite (split_app _ _ _ Hs), (split_no_sep _ _ Ht).
Qed.

Lemma split_gtid_raises g :
  count ":" g ≠ 1%nat → GtidPosition.split_gtid (VStr g) = Raise ValueError.
Proof.
  intros H. unfold GtidPosition.split_gtid.
  pose proof (length_split ":" g) as L.
  destruct (split ":" g) as [|a [|b [|c l]]]; simpl in L; try done. lia.
Qed.

(** The resume mapping of a GTID [sid:tid] whose [tid] reads as [n]: the
    interval ends at [n] when an offset is set, at [n + 1] otherwise. *)
Lemma to_replication_dict_parts sid tid n off :
  count ":" sid = 0%nat → count ":" tid = 0%nat → int tid = Return n →
  GtidPosition.to_replication_dict
    (GtidPosition.__init__ (VStr (sid +:+ ":" +:+ tid)) off) =
  Return {[ "auto_position" :=
              VStr (sid +:+ ":1-" +:+ str_of_int (if truthy off then n else n + 1)) ]}.
Proof.
  intros Hs Ht Hn. unfold GtidPosition.to_replication_dict.
  cbn [GtidPosition.gtid GtidPosition.offset].
  rewrite truthy_append_colon. cbn [andb].
  unfold GtidPosition._format_gtid_set, GtidPosition._format_next_gtid_set.
  rewrite (split_gtid_parts _ _ Hs Ht). cbn [mbind result_bind mret result_ret].
  rewrite Hn. cbn [mbind result_bind mret result_ret].
  by destruct (truthy off).
Qed.

(** A well-formed GTID is the text before its colon, the colon, and an
    integer text free of colons. *)
Lemma well_formed_parts g :
  well_formed g = true →
  g = before ":" g +:+ ":" +:+ after ":" g ∧
  count ":" (before ":" g) = 0%nat ∧ count ":" (after ":" g) = 0%nat ∧
  integer_text (after ":" g) = true.
Proof.
  unfold well_formed. intros [Hc Hi]%andb_true_iff.
  apply Nat.eqb_eq in Hc.
  destruct (split_two ":" g _ _ (split_one _ _ Hc)) as (E & H1 & H2).
  done.
Qed.

(** On a well-formed GTID the resume mapping is returned. *)
Theorem to_replication_dict_well_formed g off :
  well_formed g = true →
  ∃ n, int (after ":" g) = Return n ∧
       GtidPosition.to_replication_dict (GtidPosition.__init__ (VStr g) off) =
       Return {[ "auto_position" :=
                   VStr (before ":" g +:+ ":1-" +:+
                         str_of_int (if truthy off then n else n + 1)) ]}.
Proof.
  intros (E & H1 & H2 & Hi)%well_formed_parts.
  apply int_returns_iff in Hi as [n Hn]. exists n. split; [done|].
  rewrite E at 1. by apply to_replication_dict_parts.
Qed.

(** On any other non-empty string the call raises [ValueError]. *)
Lemma to_replication_dict_malformed g off :
  truthy (VStr g) = true → well_formed g = false →
  GtidPosition.to_replication_dict (GtidPosition.__init__ (VStr g) off) =
  Raise ValueError.
Proof.
  intros Ht Hw. unfold GtidPosition.to_replication_dict.
  cbn [GtidPosition.gtid GtidPosition.offset]. rewrite Ht. cbn [andb].
  unfold GtidPosition._format_gtid_set, GtidPosition._format_next_gtid_set.
  unfold well_formed in Hw. apply andb_false_iff in Hw as [Hc|Hi].
  - apply Nat.eqb_neq in Hc. rewrite (split_gtid_raises _ Hc).
    by destruct (truthy off).
  - destruct (Nat.eq_dec (count ":" g) 1%nat) as [Hc|Hc].
    + unfold GtidPosition.split_gtid. rewrite (split_one _ _ Hc).
      cbn [mbind result_bind mret result_ret].
      apply int_raises_iff in Hi. rewrite Hi. by destruct (truthy off).
    + rewrite (split_gtid_raises _ Hc). by destruct (truthy off).
Qed.

(** A truthy gtid that is not a string has no [split]. *)
Lemma to_replication_dict_not_a_string z off :
  z ≠ 0 →
  GtidPosition.to_replication_dict (GtidPosition.__init__ (VInt z) off) =
  Raise AttributeError.
Proof.
  intros Hz. unfold GtidPosition.to_replication_dict. simpl.
  apply Z.eqb_neq in Hz. rewrite Hz. by destruct (truthy off).
Qed.

(** The integer text may be padded with white space, carry a sign or
    leading zeros: [int] reads it all the same. *)
Example lenient_integer_texts :
  GtidPosition.to_replication_dict (GtidPosition.__init__ (VStr "abc: 5") VNone) =
    Return {[ "auto_position" := VStr "abc:1-6" ]} ∧
  GtidPosition.to_replication_dict (GtidPosition.__init__ (VStr "abc:007") (VInt 1)) =
    Return {[ "auto_position" := VStr "abc:1-7" ]} ∧
  GtidPosition.to_replication_dict (GtidPosition.__init__ (VStr "abc:-5") VNone) =
    Return {[ "auto_position" := VStr "abc:1--4" ]}.
Proof. done. Qed.

End GtidResume.

(** ** Resume mappings *)

Section ResumeMapping.

Implicit Types (S : string) (g off : value) (n : Z).

(** C1. A GTID [S:N], with [S] free of colons and [N] the decimal text of a
    positive integer, and an offset that is absent or falsy: the resume
    mapping is exactly [{"auto_position": "S:1-(N+1)"}]. *)
Theorem C1_next_interval S n off :
  count ":" S = 0%nat → 0 < n → truthy off = false →
  GtidPosition.to_replication_dict
    (GtidPosition.__init__ (VStr (S +:+ ":" +:+ str_of_int n)) off) =
  Return {[ "auto_position" := VStr (S +:+ ":1-" +:+ str_of_int (n + 1)) ]}.
Proof.
  intros HS _ Hoff.
  rewrite (to_replication_dict_parts S (str_of_int n) n off HS
             (count_colon_str_of_int n) (int_str_of_int n)).
  by rewrite Hoff.
Qed.

Lemma C1_next_interval_witness :
  GtidPosition.to_replication_dict
    (GtidPosition.__init__ (VStr "3E11FA47-71CA-11E1-9E33-C80AA9429562:13") VNone) =
  Return {[ "auto_position" := VStr "3E11FA47-71CA-11E1-9E33-C80AA9429562:1-14" ]}.
Proof.
  apply (C1_next_interval "3E11FA47-71CA-11E1-9E33-C80AA9429562" 13 VNone);
    [reflexivity | lia | reflexivity].
Defined.

(** C2. The same GTID with a truthy offset: the resume mapping is exactly
    [{"auto_position": "S:1-N"}], the transaction id unchanged. *)
Theorem C2_current_interval S n off :
  count ":" S = 0%nat → 0 < n → truthy off = true →
  GtidPosition.to_replication_dict
    (GtidPosition.__init__ (VStr (S +:+ ":" +:+ str_of_int n)) off) =
  Return {[ "auto_position" := VStr (S +:+ ":1-" +:+ str_of_int n) ]}.
Proof.
  intros HS _ Hoff.
  rewrite (to_replication_dict_parts S (str_of_int n) n off HS
             (count_colon_str_of_int n) (int_str_of_int n)).
  by rewrite Hoff.
Qed.

Lemma C2_current_interval_witness :
  GtidPosition.to_replication_dict
    (GtidPosition.__init__ (VStr "abc:13") (VInt 10)) =
  Return {[ "auto_position" := VStr "abc:1-13" ]}.
Proof.
  apply (C2_current_interval "abc" 13 (VInt 10)); [reflexivity | lia | reflexivity].
Defined.



(** C6. An offset of [0] behaves as an absent offset: the persisted
    mapping has no ["offset"] key and the resume mapping follows the
    next-interval rule. *)
Theorem C6_zero_offset_is_absent g :
  GtidPosition.to_dict (GtidPosition.__init__ g (VInt 0)) =
    GtidPosition.to_dict (GtidPosition.__init__ g VNone) ∧
  GtidPosition.to_dict (GtidPosition.__init__ g (VInt 0)) !! "offset" = None ∧
  GtidPosition.to_replication_dict (GtidPosition.__init__ g (VInt 0)) =
    GtidPosition.to_replication_dict (GtidPosition.__init__ g VNone) ∧
  GtidPosition.to_replication_dict (GtidPosition.__init__ g (VInt 0)) =
    (if truthy g
     then s ← GtidPosition._format_next_gtid_set g;
          mret {[ "auto_position" := VStr s ]}
     else mret ∅) ∧
  GtidPosition.to_dict (GtidPosition.__init__ (VStr "abc:5") (VInt 0)) =
    {[ "gtid" := VStr "abc:5" ]} ∧
  GtidPosition.to_replication_dict (GtidPosition.__init__ (VStr "abc:5") (VInt 0)) =
    Return {[ "auto_position" := VStr "abc:1-6" ]}.
Proof.
  repeat split; try done.
  - unfold GtidPosition.to_dict. simpl. by destruct (truthy g).
  - unfold GtidPosition.to_replication_dict. simpl. by destruct (truthy g).
Qed.

(** C10. A falsy GTID with a truthy offset: the resume mapping is empty
    and nothing is raised. *)
Theorem C10_offset_without_gtid g off :
  truthy g = false → truthy off = true →
  GtidPosition.to_replication_dict (GtidPosition.__init__ g off) = Return ∅.
Proof.
  intros Hg _. unfold GtidPosition.to_replication_dict. simpl. by rewrite Hg.
Qed.

Lemma C10_offset_without_gtid_witness :
  GtidPosition.to_replication_dict (GtidPosition.__init__ VNone (VInt 5)) = Return ∅ ∧
  GtidPosition.to_replication_dict (GtidPosition.__init__ (VStr "") (VInt 5)) = Return ∅.
Proof.
  split.
  - apply (C10_offset_without_gtid VNone (VInt 5)); reflexivity.
  - apply (C10_offset_without_gtid (VStr "") (VInt 5)); reflexivity.
Defined.

(** C7. The resume mapping of a [LogPosition] has no ["offset"] key,
    whatever the offset field holds; its keys are ["log_pos"] and
    ["log_file"], both present when both values are truthy and both
    absent otherwise. *)
Theorem C7_log_resume_keys (p : LogPosition.t) :
  LogPosition.to_replication_dict p !! "offset" = None ∧
  dom (LogPosition.to_replication_dict p) =
    (if truthy (LogPosition.log_pos p) && truthy (LogPosition.log_file p)
     then {[ "log_pos"; "log_file" ]} else ∅ : gset string) ∧
  LogPosition.to_replication_dict p =
    LogPosition.to_replication_dict
      (LogPosition.__init__ (LogPosition.log_pos p) (LogPosition.log_file p) VNone).
Proof.
  unfold LogPosition.to_replication_dict. simpl.
  destruct (truthy (LogPosition.log_pos p) && truthy (LogPosition.log_file p)).
  - split; [done|]. split; [|done].
    rewrite !dom_insert_L, dom_empty_L. set_solver.
  - split; [done|]. split; [|done]. by rewrite dom_empty_L.
Qed.

End ResumeMapping.

(** ** The factory and the persisted mapping *)

Section Factory.

Implicit Types (d : gmap string value) (k : string) (v : value).

Lemma contains_is_Some d k : contains d k = true ↔ is_Some (d !! k).
Proof. unfold contains. apply bool_decide_eq_true. Qed.

Lemma contains_None d k : contains d k = false ↔ d !! k = None.
Proof.
  unfold contains. rewrite bool_decide_eq_false. symmetry. apply eq_None_not_Some.
Qed.

(** Closes a goal whose hypotheses disagree on the presence of a key. *)
Local Ltac absurd_keys :=
  intros; try intros ?;
  repeat match goal with
    | H : _ ∧ _ |- _ => destruct H
    | H : is_Some None |- _ => by apply is_Some_None in H
    | H : Some _ = None |- _ => discriminate H
    | H : ¬ (is_Some (Some _) ∧ is_Some (Some _)) |- _ => by (destruct H; eauto)
    end;
  try congruence.

(** C5. [construct_position] raises [InvalidPositionDictException]
    exactly when the mapping has no ["gtid"] key and lacks one of
    ["log_pos"] and ["log_file"]; with a ["gtid"] key it returns a
    [GtidPosition], and with both log keys and no ["gtid"] key a
    [LogPosition].  The empty mapping and [{"log_pos": 100}] are
    rejected. *)
Theorem C5_construct_position d :
  (construct_position d = Raise InvalidPositionDictException ↔
     d !! "gtid" = None ∧
     ¬ (is_Some (d !! "log_pos") ∧ is_Some (d !! "log_file"))) ∧
  (is_Some (d !! "gtid") →
     construct_position d =
     Return (Gtid (GtidPosition.__init__ (get d "gtid") (get d "offset")))) ∧
  (d !! "gtid" = None → is_Some (d !! "log_pos") → is_Some (d !! "log_file") →
     construct_position d =
     Return (Log (LogPosition.__init__
                    (get d "log_pos") (get d "log_file") (get d "offset")))) ∧
  construct_position ∅ = Raise InvalidPositionDictException ∧
  construct_position {[ "log_pos" := VInt 100 ]} =
    Raise InvalidPositionDictException.
Proof.
  unfold construct_position.
  destruct (contains d "gtid") eqn:G;
    [apply contains_is_Some in G|apply contains_None in G].
  { destruct G as [v G]. repeat split; try done; absurd_keys. }
  destruct (contains d "log_pos") eqn:P;
    [apply contains_is_Some in P as [? P]|apply contains_None in P];
    (destruct (contains d "log_file") eqn:F;
      [apply contains_is_Some in F as [? F]|apply contains_None in F]);
    cbn [andb]; repeat split; try done; rewrite ?P, ?F, ?G; absurd_keys.
Qed.

(** *** Keys of the persisted mappings *)

Lemma gtid_to_dict_lookup (p : GtidPosition.t) :
  GtidPosition.to_dict p !! "gtid" =
    (if truthy (GtidPosition.gtid p) then Some (GtidPosition.gtid p) else None) ∧
  GtidPosition.to_dict p !! "offset" =
    (if truthy (GtidPosition.offset p) then Some (GtidPosition.offset p) else None) ∧
  GtidPosition.to_dict p !! "log_pos" = None ∧
  GtidPosition.to_dict p !! "log_file" = None.
Proof.
  unfold GtidPosition.to_dict.
  by destruct (truthy (GtidPosition.gtid p)), (truthy (GtidPosition.offset p)).
Qed.

Lemma log_to_dict_lookup (p : LogPosition.t) :
  let both := truthy (LogPosition.log_pos p) && truthy (LogPosition.log_file p) in
  LogPosition.to_dict p !! "gtid" = None ∧
  LogPosition.to_dict p !! "log_pos" =
    (if both then Some (LogPosition.log_pos p) else None) ∧
  LogPosition.to_dict p !! "log_file" =
    (if both then Some (LogPosition.log_file p) else None) ∧
  LogPosition.to_dict p !! "offset" =
    (if truthy (LogPosition.offset p) then Some (LogPosition.offset p) else None).
Proof.
  unfold LogPosition.to_dict. cbv zeta.
  by destruct (truthy (LogPosition.log_pos p) && truthy (LogPosition.log_file p)),
       (truthy (LogPosition.offset p)).
Qed.

Lemma construct_position_to_dict (p : Position) :
  construct_position (to_dict p) =
    if locates p then Return (reloaded p) else Raise InvalidPositionDictException.
Proof.
  unfold construct_position, contains, get.
  destruct p as [g|l]; cbn [to_dict locates reloaded].
  - destruct (gtid_to_dict_lookup g) as (-> & -> & -> & ->).
    destruct (truthy (GtidPosition.gtid g)), (truthy (GtidPosition.offset g));
      reflexivity.
  - destruct (log_to_dict_lookup l) as (-> & -> & -> & ->).
    destruct (truthy (LogPosition.log_pos l) && truthy (LogPosition.log_file l)),
      (truthy (LogPosition.offset l)); reflexivity.
Qed.

Lemma to_dict_reloaded (p : Position) : to_dict (reloaded p) = to_dict p.
Proof.
  destruct p as [[g o]|[lp lf o]]; cbn [reloaded to_dict];
    unfold GtidPosition.to_dict, LogPosition.to_dict; simpl;
    destruct (truthy o) eqn:E; simpl; rewrite ?E; reflexivity.
Qed.

(** C3 (as amended).  For a [GtidPosition] whose gtid is truthy and for a
    [LogPosition] whose log_pos and log_file are both truthy, whatever the
    offset: [construct_position] accepts the persisted mapping, and the
    position it returns persists to the same mapping. *)
Theorem C3_round_trip (p : Position) :
  locates p = true →
  ∃ q, construct_position (to_dict p) = Return q ∧ to_dict q = to_dict p.
Proof.
  intros H. exists (reloaded p).
  by rewrite construct_position_to_dict, H, to_dict_reloaded.
Qed.

Lemma C3_round_trip_witness :
  (∃ q, construct_position
          (to_dict (Gtid (GtidPosition.__init__ (VStr "abc:13") (VInt 10)))) = Return q ∧
        to_dict q = to_dict (Gtid (GtidPosition.__init__ (VStr "abc:13") (VInt 10)))) ∧
  (∃ q, construct_position
          (to_dict (Log (LogPosition.__init__ (VInt 154) (VStr "binlog.000003") VNone))) =
          Return q ∧
        to_dict q = to_dict (Log (LogPosition.__init__ (VInt 154) (VStr "binlog.000003") VNone))).
Proof.
  split.
  - apply (C3_round_trip (Gtid (GtidPosition.__init__ (VStr "abc:13") (VInt 10)))).
    reflexivity.
  - apply (C3_round_trip (Log (LogPosition.__init__ (VInt 154) (VStr "binlog.000003") VNone))).
    reflexivity.
Defined.

(** C3 as stated fails: the persisted mapping of a position without a
    truthy gtid, or without both log values, is rejected by the factory,
    so there is nothing to persist a second time. *)
Lemma C3_counterexample :
  to_dict (Gtid (GtidPosition.__init__ VNone VNone)) = ∅ ∧
  construct_position (to_dict (Gtid (GtidPosition.__init__ VNone VNone))) =
    Raise InvalidPositionDictException ∧
  construct_position (to_dict (Gtid (GtidPosition.__init__ VNone (VInt 3)))) =
    Raise InvalidPositionDictException ∧
  construct_position (to_dict (Log (LogPosition.__init__ VNone VNone VNone))) =
    Raise InvalidPositionDictException.
Proof. done. Qed.

(** C8 (as amended).  The constructor does not check the invariant; for a
    [GtidPosition] that satisfies it, the persisted mapping has an
    ["offset"] key only together with a ["gtid"] key, and whatever
    [construct_position] rebuilds from that mapping is a [GtidPosition]
    that satisfies it again. *)
Theorem C8_offset_with_gtid (p : GtidPosition.t) :
  offset_needs_gtid p = true →
  (is_Some (GtidPosition.to_dict p !! "offset") →
   is_Some (GtidPosition.to_dict p !! "gtid")) ∧
  (∀ q, construct_position (GtidPosition.to_dict p) = Return q →
        ∃ p', q = Gtid p' ∧ offset_needs_gtid p' = true).
Proof.
  unfold offset_needs_gtid. intros H. split.
  - destruct (gtid_to_dict_lookup p) as (-> & -> & _).
    destruct (truthy (GtidPosition.gtid p)), (truthy (GtidPosition.offset p));
      try done; by intros [? ?].
  - intros q. change (GtidPosition.to_dict p) with (to_dict (Gtid p)).
    rewrite construct_position_to_dict. cbn [locates reloaded].
    destruct (truthy (GtidPosition.gtid p)) eqn:G; [|done].
    intros [= <-]. eexists. split; [done|]. simpl. rewrite G.
    apply implb_true_r.
Qed.

Lemma C8_offset_with_gtid_witness :
  (is_Some (GtidPosition.to_dict (GtidPosition.__init__ (VStr "abc:5") (VInt 3)) !! "offset") →
   is_Some (GtidPosition.to_dict (GtidPosition.__init__ (VStr "abc:5") (VInt 3)) !! "gtid")) ∧
  (∀ q, construct_position
          (GtidPosition.to_dict (GtidPosition.__init__ (VStr "abc:5") (VInt 3))) = Return q →
        ∃ p', q = Gtid p' ∧ offset_needs_gtid p' = true).
Proof.
  apply (C8_offset_with_gtid (GtidPosition.__init__ (VStr "abc:5") (VInt 3))).
  reflexivity.
Defined.

(** C8 as stated fails: a [GtidPosition] with an offset and no gtid can
    be built directly and through [construct_position], and its persisted
    mapping has the ["offset"] key alone. *)
Lemma C8_counterexample :
  offset_needs_gtid (GtidPosition.__init__ VNone (VInt 5)) = false ∧
  GtidPosition.to_dict (GtidPosition.__init__ VNone (VInt 5)) =
    {[ "offset" := VInt 5 ]} ∧
  construct_position {[ "gtid" := VStr ""; "offset" := VInt 5 ]} =
    Return (Gtid (GtidPosition.__init__ (VStr "") (VInt 5))) ∧
  offset_needs_gtid (GtidPosition.__init__ (VStr "") (VInt 5)) = false.
Proof. done. Qed.

End Factory.

(** ** Heartbeat positions *)

Section Heartbeat.

Import HeartbeatPosition.

Lemma eqv_eq (x y : value) : eqv x y = true ↔ x = y.
Proof. unfold eqv. apply bool_decide_eq_true. Qed.

(** C9. Two heartbeat positions compare equal exactly when they agree on
    [hb_serial], [hb_timestamp], [log_file] and [log_pos]; the offset
    plays no part, so two positions that differ only in their offset
    compare equal. *)
Theorem C9_heartbeat_equality (a b : HeartbeatPosition.t) :
  (__eq__ a b = true ↔
     hb_serial a = hb_serial b ∧ hb_timestamp a = hb_timestamp b ∧
     log_file a = log_file b ∧ log_pos a = log_pos b) ∧
  (∀ off,
     __eq__ a (__init__ (hb_serial a) (hb_timestamp a) (log_pos a) (log_file a) off)
     = true) ∧
  (∀ serial timestamp pos file off1 off2,
     __eq__ (__init__ serial timestamp pos file off1)
            (__init__ serial timestamp pos file off2) = true).
Proof.
  assert (∀ x y : HeartbeatPosition.t,
            __eq__ x y = true ↔
            hb_serial x = hb_serial y ∧ hb_timestamp x = hb_timestamp y ∧
            log_file x = log_file y ∧ log_pos x = log_pos y) as Heq.
  { intros x y. unfold __eq__. rewrite !andb_true_iff, !eqv_eq. tauto. }
  split; [apply Heq|]. split; intros; by apply Heq.
Qed.

End Heartbeat.

(** * Further properties *)

(** ** When the GTID resume mapping is returned, and what it holds *)

Section GtidResumeShape.

Implicit Types (g s sid tid : string) (off : value) (n : Z).

(** What a returned resume mapping looks like: empty for a falsy gtid,
    and otherwise the one key ["auto_position"] with the source id of the
    gtid, [":1-"] and an integer in decimal. *)
Lemma to_replication_dict_inv (gtid : value) off d :
  GtidPosition.to_replication_dict (GtidPosition.__init__ gtid off) = Return d →
  (truthy gtid = false ∧ d = ∅) ∨
  (∃ g n, gtid = VStr g ∧ truthy gtid = true ∧ well_formed g = true ∧
          int (after ":" g) = Return n ∧
          d = {[ "auto_position" :=
                   VStr (before ":" g +:+ ":1-" +:+
                         str_of_int (if truthy off then n else n + 1)) ]}).
Proof.
  destruct (truthy gtid) eqn:T.
  - destruct gtid as [|g|z]; [done| |].
    + destruct (well_formed g) eqn:W.
      * destruct (to_replication_dict_well_formed g off W) as (n & Hn & ->).
        intros [= <-]. right. by exists g, n.
      * by rewrite (to_replication_dict_malformed g off T W).
    + rewrite to_replication_dict_not_a_string; [done|].
      intros ->. done.
  - unfold GtidPosition.to_replication_dict. simpl. rewrite T. simpl.
    intros [= <-]. by left.
Qed.


(** X2. A transaction that was completed and the next transaction in
    progress resume at the same place: gtid [S:n] without an offset and
    gtid [S:(n+1)] with a truthy offset give the same resume mapping. *)
Theorem X2_completed_is_next_in_progress (S : string) n off off' :
  count ":" S = 0%nat → truthy off = false → truthy off' = true →
  GtidPosition.to_replication_dict
    (GtidPosition.__init__ (VStr (S +:+ ":" +:+ str_of_int n)) off) =
  GtidPosition.to_replication_dict
    (GtidPosition.__init__ (VStr (S +:+ ":" +:+ str_of_int (n + 1))) off').
Proof.
  intros HS Hoff Hoff'.
  rewrite (to_replication_dict_parts S (str_of_int n) n off HS
             (count_colon_str_of_int n) (int_str_of_int n)).
  rewrite (to_replication_dict_parts S (str_of_int (n + 1)) (n + 1) off' HS
             (count_colon_str_of_int (n + 1)) (int_str_of_int (n + 1))).
  by rewrite Hoff, Hoff'.
Qed.

Lemma X2_completed_is_next_in_progress_witness :
  GtidPosition.to_replication_dict (GtidPosition.__init__ (VStr "sid:13") VNone) =
  GtidPosition.to_replication_dict (GtidPosition.__init__ (VStr "sid:14") (VInt 10)).
Proof.
  apply (X2_completed_is_next_in_progress "sid" 13 VNone (VInt 10)); reflexivity.
Defined.

(** X3. The interval string is not a gtid: handing an ["auto_position"]
    value back as the gtid of a position makes [to_replication_dict]
    raise [ValueError], whatever the offset. *)
Theorem X3_auto_position_is_not_a_gtid (gtid : value) off d s off' :
  GtidPosition.to_replication_dict (GtidPosition.__init__ gtid off) = Return d →
  d !! "auto_position" = Some (VStr s) →
  GtidPosition.to_replication_dict (GtidPosition.__init__ (VStr s) off') =
  Raise ValueError.
Proof.
  intros [[_ ->]|(g & n & _ & _ & _ & _ & ->)]%to_replication_dict_inv; [done|].
  rewrite lookup_singleton_eq. intros [= <-].
  set (m := if truthy off then n else n + 1).
  change (":1-" +:+ str_of_int m) with (":" +:+ ("1-" +:+ str_of_int m)).
  unfold GtidPosition.to_replication_dict.
  cbn [GtidPosition.gtid GtidPosition.offset].
  rewrite truthy_append_colon. cbn [andb].
  unfold GtidPosition._format_gtid_set, GtidPosition._format_next_gtid_set.
  rewrite split_gtid_parts;
    [|apply count_before|exact (count_colon_str_of_int m)].
  cbn [mbind result_bind mret result_ret].
  assert (int ("1-" +:+ str_of_int m) = Raise ValueError) as ->
    by by apply int_raises_iff.
  by destruct (truthy off').
Qed.

Lemma X3_auto_position_is_not_a_gtid_witness :
  GtidPosition.to_replication_dict (GtidPosition.__init__ (VStr "abc:1-14") (VInt 2)) =
  Raise ValueError.
Proof.
  apply (X3_auto_position_is_not_a_gtid (VStr "abc:13") VNone
           {[ "auto_position" := VStr "abc:1-14" ]} "abc:1-14" (VInt 2));
    reflexivity.
Defined.

(** X4. A returned GTID resume mapping has the single key
    ["auto_position"] when the gtid is truthy and no key otherwise; the
    offset never appears in it. *)
Theorem X4_gtid_resume_keys (p : GtidPosition.t) d :
  GtidPosition.to_replication_dict p = Return d →
  dom d = (if truthy (GtidPosition.gtid p) then {[ "auto_position" ]} else ∅
           : gset string).
Proof.
  destruct p as [g off].
  intros [[T ->]|(g' & n & _ & T & _ & _ & ->)]%to_replication_dict_inv;
    cbn [GtidPosition.gtid]; rewrite T.
  - apply dom_empty_L.
  - apply dom_singleton_L.
Qed.

Lemma X4_gtid_resume_keys_witness :
  dom ({[ "auto_position" := VStr "abc:1-13" ]} : gmap string value) =
  ({[ "auto_position" ]} : gset string).
Proof.
  apply (X4_gtid_resume_keys (GtidPosition.__init__ (VStr "abc:13") (VInt 10))).
  reflexivity.
Defined.

End GtidResumeShape.

(** ** Persisted mappings and the factory *)

Section Persisted.

Implicit Types (d : gmap string value) (k : string) (v : value) (p q : Position).

(** X5. Nothing falsy is ever persisted: every value stored in the
    mapping [to_dict] returns is truthy, so no [None], [0] or empty string
    reaches the checkpoint. *)
Theorem X5_persisted_values_truthy p k v :
  to_dict p !! k = Some v → truthy v = true.
Proof.
  destruct p as [[g o]|[lp lf o]]; cbn [to_dict];
    unfold GtidPosition.to_dict, LogPosition.to_dict; simpl.
  - destruct (truthy g) eqn:G, (truthy o) eqn:O; intros H;
      repeat (apply lookup_insert_Some in H as [[_ <-]|[_ H]]; [done|]);
      by rewrite lookup_empty in H.
  - destruct (truthy lp) eqn:P, (truthy lf) eqn:F, (truthy o) eqn:O; simpl;
      intros H;
      repeat (apply lookup_insert_Some in H as [[_ <-]|[_ H]]; [done|]);
      by rewrite lookup_empty in H.
Qed.

Lemma X5_persisted_values_truthy_witness : truthy (VInt 154) = true.
Proof.
  apply (X5_persisted_values_truthy
           (Log (LogPosition.__init__ (VInt 154) (VStr "binlog.000003") (VInt 0)))
           "log_pos" (VInt 154)).
  reflexivity.
Defined.

Lemma log_resume_delete_offset (l : LogPosition.t) :
  LogPosition.to_replication_dict l = delete "offset" (LogPosition.to_dict l).
Proof.
  unfold LogPosition.to_replication_dict, LogPosition.to_dict. cbv zeta.
  destruct (truthy (LogPosition.log_pos l) && truthy (LogPosition.log_file l)),
    (truthy (LogPosition.offset l));
    rewrite ?delete_insert_eq, ?delete_insert_ne, ?delete_empty by done;
    reflexivity.
Qed.

(** X6. For a [LogPosition], and so for a [HeartbeatPosition], the resume
    mapping is the persisted mapping without its ["offset"] key. *)
Theorem X6_log_resume_is_persisted_less_offset
    (l : LogPosition.t) (hb : HeartbeatPosition.t) :
  LogPosition.to_replication_dict l = delete "offset" (LogPosition.to_dict l) ∧
  HeartbeatPosition.to_replication_dict hb =
    delete "offset" (HeartbeatPosition.to_dict hb).
Proof. split; apply log_resume_delete_offset. Qed.

(** X7. A persisted mapping never holds a gtid next to a log position, so
    the order in which [construct_position] tests its keys cannot matter
    for a mapping that [to_dict] produced. *)
Theorem X7_persisted_is_of_one_kind p :
  to_dict p !! "gtid" = None ∨
  (to_dict p !! "log_pos" = None ∧ to_dict p !! "log_file" = None).
Proof.
  destruct p as [g|l]; cbn [to_dict].
  - right. by destruct (gtid_to_dict_lookup g) as (_ & _ & -> & ->).
  - left. by destruct (log_to_dict_lookup l) as (-> & _).
Qed.

(** X8. The position [construct_position] returns persists to a part of
    the mapping it was built from: [to_dict] adds no key and changes no
    value (it may drop falsy values and keys of the other kind). *)
Theorem X8_reconstructed_persists_within d q :
  construct_position d = Return q → to_dict q ⊆ d.
Proof.
  assert (∀ k v, truthy (get d k) = true → get d k = v → d !! k = Some v) as Hget.
  { intros k v. unfold get. destruct (d !! k); simpl; [congruence|done]. }
  unfold construct_position.
  destruct (contains d "gtid");
    [|destruct (contains d "log_pos" && contains d "log_file")];
    intros [= <-]; cbn [to_dict]; apply map_subseteq_spec; intros k v H.
  - unfold GtidPosition.to_dict in H. cbn [GtidPosition.gtid GtidPosition.offset] in H.
    destruct (truthy (get d "gtid")) eqn:G, (truthy (get d "offset")) eqn:O;
      repeat (apply lookup_insert_Some in H as [[<- <-]|[_ H]]; [by apply Hget|]);
      by rewrite lookup_empty in H.
  - unfold LogPosition.to_dict in H.
    cbn [LogPosition.log_pos LogPosition.log_file LogPosition.offset] in H.
    destruct (truthy (get d "log_pos")) eqn:P, (truthy (get d "log_file")) eqn:F,
      (truthy (get d "offset")) eqn:O; cbn [andb] in H;
      repeat (apply lookup_insert_Some in H as [[<- <-]|[_ H]]; [by apply Hget|]);
      by rewrite lookup_empty in H.
Qed.

Lemma X8_reconstructed_persists_within_witness :
  to_dict (Gtid (GtidPosition.__init__ (VStr "abc:5") (VInt 0))) ⊆
  ({[ "gtid" := VStr "abc:5"; "offset" := VInt 0; "log_pos" := VInt 4 ]}
     : gmap string value).
Proof.
  apply (X8_reconstructed_persists_within
           {[ "gtid" := VStr "abc:5"; "offset" := VInt 0; "log_pos" := VInt 4 ]}).
  reflexivity.
Defined.

(** X9. Reloading is stable: a position that came out of
    [construct_position (to_dict p)] is rebuilt unchanged from its own
    persisted mapping. *)
Theorem X9_reload_is_stable p q :
  construct_position (to_dict p) = Return q →
  construct_position (to_dict q) = Return q.
Proof.
  rewrite construct_position_to_dict.
  destruct (locates p) eqn:L; [|done]. intros [= <-].
  by rewrite to_dict_reloaded, construct_position_to_dict, L.
Qed.

Lemma X9_reload_is_stable_witness :
  construct_position
    (to_dict (Gtid (GtidPosition.__init__ (VStr "abc:5") VNone))) =
  Return (Gtid (GtidPosition.__init__ (VStr "abc:5") VNone)).
Proof.
  apply (X9_reload_is_stable (Gtid (GtidPosition.__init__ (VStr "abc:5") (VInt 0)))).
  reflexivity.
Defined.

(** The offset of a [GtidPosition] reaches the resume mapping through
    its truth value only. *)
Lemma gtid_resume_offset_truth (g o o' : value) :
  truthy o = truthy o' →
  GtidPosition.to_replication_dict (GtidPosition.__init__ g o) =
  GtidPosition.to_replication_dict (GtidPosition.__init__ g o').
Proof.
  intros H. unfold GtidPosition.to_replication_dict. simpl. by rewrite H.
Qed.

Lemma gtid_resume_falsy (g o : value) :
  truthy g = false →
  GtidPosition.to_replication_dict (GtidPosition.__init__ g o) = Return ∅.
Proof.
  intros H. unfold GtidPosition.to_replication_dict. simpl. by rewrite H.
Qed.

Lemma kept_eq (v v' : value) :
  (if truthy v then Some v else None) = (if truthy v' then Some v' else None) →
  truthy v = truthy v' ∧ (truthy v = true → v = v').
Proof.
  destruct (truthy v) eqn:T, (truthy v') eqn:T'; intros E;
    try discriminate E; split; try done.
  intros _. by injection E.
Qed.

(** X10. The persisted mapping decides where replication resumes: two
    positions with the same persisted mapping have the same resume mapping
    (or raise the same exception), whatever else differs between them. *)
Theorem X10_resume_determined_by_persisted p q :
  to_dict p = to_dict q → to_replication_dict p = to_replication_dict q.
Proof.
  intros H.
  pose proof (f_equal (.!! "gtid") H) as Hg.
  pose proof (f_equal (.!! "offset") H) as Ho.
  pose proof (f_equal (.!! "log_pos") H) as Hp.
  pose proof (f_equal (.!! "log_file") H) as Hf.
  clear H. cbv beta in *.
  destruct p as [[g o]|l], q as [[g' o']|l']; cbn [to_dict to_replication_dict] in *.
  - destruct (gtid_to_dict_lookup (GtidPosition.__init__ g o)) as (E1 & E2 & _).
    destruct (gtid_to_dict_lookup (GtidPosition.__init__ g' o')) as (E1' & E2' & _).
    rewrite E1, E1' in Hg. rewrite E2, E2' in Ho. simpl in Hg, Ho.
    apply kept_eq in Hg as [Tg Eg]. apply kept_eq in Ho as [To _].
    destruct (truthy g) eqn:G.
    + rewrite <- (Eg eq_refl). by apply gtid_resume_offset_truth.
    + by rewrite !gtid_resume_falsy.
  - destruct (gtid_to_dict_lookup (GtidPosition.__init__ g o)) as (E1 & _ & E3 & _).
    destruct (log_to_dict_lookup l') as (E1' & E3' & _).
    rewrite E1, E1' in Hg. rewrite E3, E3' in Hp. simpl in Hg, Hp.
    unfold LogPosition.to_replication_dict.
    destruct (truthy g) eqn:G; [done|].
    destruct (truthy (LogPosition.log_pos l') && truthy (LogPosition.log_file l'));
      [done|].
    by rewrite gtid_resume_falsy.
  - destruct (gtid_to_dict_lookup (GtidPosition.__init__ g' o')) as (E1 & _ & E3 & _).
    destruct (log_to_dict_lookup l) as (E1' & E3' & _).
    rewrite E1, E1' in Hg. rewrite E3, E3' in Hp. simpl in Hg, Hp.
    unfold LogPosition.to_replication_dict.
    destruct (truthy g') eqn:G; [done|].
    destruct (truthy (LogPosition.log_pos l) && truthy (LogPosition.log_file l));
      [done|].
    by rewrite gtid_resume_falsy.
  - destruct (log_to_dict_lookup l) as (_ & E3 & E4 & _).
    destruct (log_to_dict_lookup l') as (_ & E3' & E4' & _).
    rewrite E3, E3' in Hp. rewrite E4, E4' in Hf.
    unfold LogPosition.to_replication_dict. f_equal.
    destruct (truthy (LogPosition.log_pos l) && truthy (LogPosition.log_file l)),
      (truthy (LogPosition.log_pos l') && truthy (LogPosition.log_file l'));
      try done.
    injection Hp as ->. injection Hf as ->. done.
Qed.

Lemma X10_resume_determined_by_persisted_witness :
  to_replication_dict (Gtid (GtidPosition.__init__ (VStr "abc:5") (VInt 0))) =
  to_replication_dict (Gtid (GtidPosition.__init__ (VStr "abc:5") (VStr ""))).
Proof.
  apply (X10_resume_determined_by_persisted
           (Gtid (GtidPosition.__init__ (VStr "abc:5") (VInt 0)))
           (Gtid (GtidPosition.__init__ (VStr "abc:5") (VStr "")))).
  reflexivity.
Defined.

(** X11. A restart resumes where the running process would have: the
    position rebuilt from a persisted mapping has the resume mapping of
    the position that was persisted. *)
Theorem X11_reload_keeps_resume_point p q :
  construct_position (to_dict p) = Return q →
  to_replication_dict q = to_replication_dict p.
Proof.
  rewrite construct_position_to_dict.
  destruct (locates p); [|done]. intros [= <-].
  destruct p as [[g o]|[lp lf o]]; cbn [reloaded to_replication_dict]; [|done].
  cbn [GtidPosition.gtid GtidPosition.offset].
  apply gtid_resume_offset_truth. by destruct (truthy o) eqn:O.
Qed.

Lemma X11_reload_keeps_resume_point_witness :
  to_replication_dict (Gtid (GtidPosition.__init__ (VStr "abc:13") VNone)) =
  to_replication_dict (Gtid (GtidPosition.__init__ (VStr "abc:13") (VInt 0))).
Proof.
  apply (X11_reload_keeps_resume_point
           (Gtid (GtidPosition.__init__ (VStr "abc:13") (VInt 0)))).
  reflexivity.
Defined.

(** X12. [construct_position] reads the keys ["gtid"], ["offset"],
    ["log_pos"] and ["log_file"] only: adding, changing or removing any
    other key of the mapping changes nothing. *)
Theorem X12_other_keys_are_ignored d k v :
  k ≠ "gtid" → k ≠ "offset" → k ≠ "log_pos" → k ≠ "log_file" →
  construct_position (<[k := v]> d) = construct_position d ∧
  construct_position (delete k d) = construct_position d.
Proof.
  intros. unfold construct_position, contains, get.
  by rewrite !lookup_insert_ne, !lookup_delete_ne.
Qed.

Lemma X12_other_keys_are_ignored_witness :
  construct_position (<["cluster" := VStr "primary"]> {[ "gtid" := VStr "abc:5" ]}) =
    construct_position {[ "gtid" := VStr "abc:5" ]} ∧
  construct_position (delete "cluster" {[ "gtid" := VStr "abc:5" ]}) =
    construct_position {[ "gtid" := VStr "abc:5" ]}.
Proof.
  apply (X12_other_keys_are_ignored {[ "gtid" := VStr "abc:5" ]} "cluster"
           (VStr "primary")); done.
Defined.



End Persisted.

(** ** Heartbeat positions, continued *)

Section HeartbeatFurther.

Import HeartbeatPosition.

Implicit Types (a b : HeartbeatPosition.t) (s t : string).

Lemma heartbeat_eq_fields a b :
  __eq__ a b = true ↔
  hb_serial a = hb_serial b ∧ hb_timestamp a = hb_timestamp b ∧
  log_file a = log_file b ∧ log_pos a = log_pos b.
Proof.
  unfold __eq__. rewrite !andb_true_iff. unfold eqv.
  rewrite !bool_decide_eq_true. tauto.
Qed.

(** X13. [==] on heartbeat positions is an equivalence relation:
    reflexive, symmetric and transitive. *)
Theorem X13_heartbeat_eq_equivalence :
  Equivalence (λ a b, __eq__ a b = true).
Proof.
  split.
  - intros a. by apply heartbeat_eq_fields.
  - intros a b (? & ? & ? & ?)%heartbeat_eq_fields.
    by apply heartbeat_eq_fields.
  - intros a b c (? & ? & ? & ?)%heartbeat_eq_fields
      (? & ? & ? & ?)%heartbeat_eq_fields.
    apply heartbeat_eq_fields. repeat split; congruence.
Qed.

(** X14. Heartbeat positions that compare equal resume replication at the
    same place and print the same text; only their persisted row offset
    can tell them apart. *)
Theorem X14_equal_heartbeats_agree a b :
  __eq__ a b = true →
  to_replication_dict a = to_replication_dict b ∧
  __str__ a = __str__ b ∧
  delete "offset" (to_dict a) = delete "offset" (to_dict b).
Proof.
  intros (Hs & Ht & Hf & Hp)%heartbeat_eq_fields.
  unfold to_dict. rewrite <- !log_resume_delete_offset.
  unfold __str__, to_replication_dict, LogPosition.to_replication_dict.
  unfold log_file, log_pos in *. by rewrite Hs, Ht, Hf, Hp.
Qed.

Lemma X14_equal_heartbeats_agree_witness :
  to_replication_dict
    (__init__ (VInt 7) (VInt 1446000000) (VInt 154) (VStr "binlog.000003") None) =
  to_replication_dict
    (__init__ (VInt 7) (VInt 1446000000) (VInt 154) (VStr "binlog.000003")
       (Some (VInt 3))) ∧
  __str__ (__init__ (VInt 7) (VInt 1446000000) (VInt 154) (VStr "binlog.000003") None) =
  __str__ (__init__ (VInt 7) (VInt 1446000000) (VInt 154) (VStr "binlog.000003")
             (Some (VInt 3))) ∧
  delete "offset"
    (to_dict (__init__ (VInt 7) (VInt 1446000000) (VInt 154) (VStr "binlog.000003")
                None)) =
  delete "offset"
    (to_dict (__init__ (VInt 7) (VInt 1446000000) (VInt 154) (VStr "binlog.000003")
                (Some (VInt 3)))).
Proof.
  apply (X14_equal_heartbeats_agree
           (__init__ (VInt 7) (VInt 1446000000) (VInt 154) (VStr "binlog.000003") None)
           (__init__ (VInt 7) (VInt 1446000000) (VInt 154) (VStr "binlog.000003")
              (Some (VInt 3)))).
  reflexivity.
Defined.

(** X15. A heartbeat position built without an offset takes the default
    [0], which is falsy: its persisted mapping has no ["offset"] key and
    equals its resume mapping. *)
Theorem X15_heartbeat_default_offset (serial timestamp pos file : value) :
  to_dict (__init__ serial timestamp pos file None) =
    to_replication_dict (__init__ serial timestamp pos file None) ∧
  to_dict (__init__ serial timestamp pos file None) !! "offset" = None.
Proof.
  unfold to_dict, to_replication_dict, LogPosition.to_dict,
    LogPosition.to_replication_dict. simpl.
  by destruct (truthy pos && truthy file).
Qed.

Lemma count_app sep s t :
  count sep (s +:+ t) = (count sep s + count sep t)%nat.
Proof.
  induction s as [|c s IH]; [done|].
  rewrite append_cons. simpl. rewrite IH. lia.
Qed.

(** X16. When no field prints with a line feed in it, the text of a
    heartbeat position has exactly four lines: the serial, the timestamp,
    the file and the position, each after its label. *)
Theorem X16_heartbeat_str_lines a :
  count LF (format_field (hb_serial a)) = 0%nat →
  count LF (format_field (hb_timestamp a)) = 0%nat →
  count LF (format_field (log_file a)) = 0%nat →
  count LF (format_field (log_pos a)) = 0%nat →
  split LF (__str__ a) =
    [ "Serial:     " +:+ format_field (hb_serial a);
      "Timestamp:  " +:+ format_field (hb_timestamp a);
      "File:       " +:+ format_field (log_file a);
      "Position:   " +:+ format_field (log_pos a) ].
Proof.
  intros H1 H2 H3 H4. unfold __str__.
  rewrite <- (append_assoc "Serial:     " _ (String LF _)).
  rewrite split_app by (by rewrite count_app, H1).
  rewrite <- (append_assoc "Timestamp:  " _ (String LF _)).
  rewrite split_app by (by rewrite count_app, H2).
  rewrite <- (append_assoc "File:       " _ (String LF _)).
  rewrite split_app by (by rewrite count_app, H3).
  rewrite split_no_sep by (by rewrite count_app, H4).
  done.
Qed.

Lemma X16_heartbeat_str_lines_witness :
  split LF (__str__ (__init__ (VInt 7) VNone (VInt 154) (VStr "binlog.000003") None)) =
    [ "Serial:     7"; "Timestamp:  None"; "File:       binlog.000003";
      "Position:   154" ].
Proof.
  apply (X16_heartbeat_str_lines
           (__init__ (VInt 7) VNone (VInt 154) (VStr "binlog.000003") None));
    reflexivity.
Defined.

End HeartbeatFurther.
